(** * priceanalyzer: the application wiring of [internal/app/app.go]

    A shallow embedding of the Go package [app] (server start-up, the
    listener goroutine and graceful shutdown) together with the storage
    contract the wiring relies on.

    Go values are embedded as follows.
    - A pointer [*T] is an [option T]; [None] is the nil pointer.
    - An interface value is either the nil interface or a dynamic value;
      see [Keeper] below for [storage.Keeper].
    - A function with effects is a computation in the monad [M]: it threads
      the trace of observable events and ends in an [outcome].
    - The packages that [app.go] imports but that are not part of the
      sources ([config], [logger], [bdkeeper], [storage], [controllers],
      [middleware], [net/http] listening) are taken as parameters: their
      types are the fields of [Packages], their functions the fields of
      [Env]. *)

From stdpp Require Import base option list strings gmap.
From Stdlib Require Import ZArith Lia.

Open Scope string_scope.
Open Scope Z_scope.
Open Scope list_scope.

(** ** Errors *)

(** A Go [error] value, as far as [errors.Is] can tell errors apart: the
    sentinel [http.ErrServerClosed], any other leaf error, or an error that
    wraps another one (its [Unwrap] method returns [inner]). *)
Inductive error : Type :=
| ErrServerClosed
| ErrOther (msg : string)
| ErrWrap (msg : string) (inner : error).

#[global] Instance error_eq_dec : EqDecision error.
Proof. solve_decision. Defined.

(** [errors.Is(err, target)]: [err] or some error in its [Unwrap] chain is
    equal to [target]. *)
Fixpoint errors_Is (err target : error) : bool :=
  bool_decide (err = target) ||
  match err with
  | ErrWrap _ inner => errors_Is inner target
  | _ => false
  end.

(** The text [%s] prints for an error ([err.Error()]). *)
Fixpoint error_text (err : error) : string :=
  match err with
  | ErrServerClosed => "http: Server closed"
  | ErrOther msg => msg
  | ErrWrap msg inner => msg +:+ ": " +:+ error_text inner
  end.

(** ** Outcomes of a call *)

(** How a call ends.  [Exit] is [os.Exit]: the process stops at once and no
    deferred call runs.  [Blocked] is a goroutine parked for ever on a
    channel receive. *)
Inductive outcome (A : Type) : Type :=
| Ret (a : A)
| Panic (msg : string)
| Exit (code : Z)
| Blocked.
Arguments Ret {A} a.
Arguments Panic {A} msg.
Arguments Exit {A} code.
Arguments Blocked {A}.

Definition returns {A} (o : outcome A) : bool :=
  match o with Ret _ => true | _ => false end.

(** ** The imported packages *)

(** Durations are [time.Duration]: a count of nanoseconds in an int64. *)
Definition Nanosecond : Z := 1.
Definition Microsecond : Z := 1000 * Nanosecond.
Definition Millisecond : Z := 1000 * Microsecond.
Definition Second : Z := 1000 * Millisecond.

(** The types of the packages whose sources are not at hand. *)
Class Packages : Type := {
  Logger : Type;            (* *logger.Logger *)
  BDKeeper : Type;          (* bdkeeper.BDKeeper, the store adapter *)
  BDKeeper_eq_dec :: EqDecision BDKeeper;
  MemoryStorage : Type;     (* storage.MemoryStorage, the cache *)
  BaseController : Type;    (* controllers.BaseController *)
  Handler : Type;           (* what basecontr.Route() returns *)
  Context_ : Type;          (* a non-nil context.Context *)
}.

(** [option] of the [config] package after [ParseFlags]: three accessors. *)
Record Options : Type := {
  LogLevel : string;
  DataBaseDSN : unit -> string;
  RunAddr : string;
}.

Section App.
Context `{P : Packages}.

(** [storage.Keeper] is an interface: [Serve] passes a
    [*bdkeeper.BDKeeper] where [initializeStorage] expects a
    [storage.Keeper].  A value of the interface is the nil interface, or
    holds the dynamic type [*bdkeeper.BDKeeper] with a pointer, which may
    itself be the nil pointer.  Only the former compares equal to [nil]. *)
Inductive Keeper : Type :=
| KeeperNil
| KeeperOf (p : option BDKeeper).

(** [keeper == nil] on the interface type. *)
Definition Keeper_is_nil (k : Keeper) : bool :=
  match k with KeeperNil => true | KeeperOf _ => false end.

(** The adapter behind a [storage.Keeper], if there is one. *)
Definition Keeper_adapter (k : Keeper) : option BDKeeper :=
  match k with KeeperNil => None | KeeperOf p => p end.

(** [p == nil] on a pointer. *)
Definition is_nil {A} (p : option A) : bool :=
  match p with None => true | Some _ => false end.

(** The chi router, as far as [Serve] builds it. *)
Inductive Middleware : Type :=
| RequestLogger (lg : Logger).

Record Router : Type := {
  middlewares : list Middleware;
  mounts : list (string * Handler);
}.

Definition NewRouter : Router := {| middlewares := []; mounts := [] |}.
Definition Use (r : Router) (mw : Middleware) : Router :=
  {| middlewares := middlewares r ++ [mw]; mounts := mounts r |}.
Definition Mount (r : Router) (pattern : string) (h : Handler) : Router :=
  {| middlewares := middlewares r; mounts := mounts r ++ [(pattern, h)] |}.

(** [http.Server], the fields [startServer] sets.  The fields set to [nil]
    are pointers or function values; [unit] stands for their pointee. *)
Record HTTPServer : Type := {
  Addr : string;
  Handler_ : Router;
  ReadHeaderTimeout : Z;
  WriteTimeout : Z;
  IdleTimeout : Z;
  ReadTimeout : Z;
  MaxHeaderBytes : Z;
  DisableGeneralOptionsHandler : bool;
  TLSConfig : option unit;
  TLSNextProto : option unit;
  ConnState : option unit;
  ErrorLog : option unit;
  BaseContext : option unit;
  ConnContext : option unit;
}.

(** [type Server struct { srv *http.Server; ctx context.Context }].
    [ctx] is an interface; [None] is the nil interface. *)
Record Server : Type := {
  srv : option HTTPServer;
  ctx : option Context_;
}.

(** ** Observable events *)

Inductive event : Type :=
| LogWarn (msg : string)                  (* logger.Warn *)
| LogDebug (msg : string)                 (* logger.Debug *)
| StdLog (msg : string)                   (* log.Println, log.Printf *)
| StdFatal (err : error)                  (* the line log.Fatalln prints *)
| CallNewBDKeeper (dsn : string)          (* bdkeeper.NewBDKeeper *)
| CallKeeperClose (k : option BDKeeper)   (* keeper.Close() is invoked *)
| ReleaseConn (k : BDKeeper)              (* the connection is released *)
| CallNewMemoryStorage (k : Keeper)       (* storage.NewMemoryStorage *)
| CallNewBaseController (s : option MemoryStorage)
| CallRoute (c : option BaseController)   (* basecontr.Route() *)
| GoListenAndServe (s : HTTPServer)       (* go server.ListenAndServe() *)
| SignalNotify                            (* signal.Notify(stopChan, os.Interrupt) *)
| AwaitSignal                             (* <-stopChan *)
| CallSrvShutdown (s : HTTPServer)        (* srv.Shutdown: the listener stops *)
| CallCancel.                             (* the CancelFunc of WithTimeout *)

(** ** The effect monad: a trace of events and an outcome *)

Definition M (A : Type) : Type := list event -> outcome A * list event.

Definition ret {A} (a : A) : M A := fun tr => (Ret a, tr).

Definition bind {A B} (m : M A) (f : A -> M B) : M B :=
  fun tr =>
    match m tr with
    | (Ret a, tr') => f a tr'
    | (Panic msg, tr') => (Panic msg, tr')
    | (Exit c, tr') => (Exit c, tr')
    | (Blocked, tr') => (Blocked, tr')
    end.

Definition emit (e : event) : M unit := fun tr => (Ret tt, tr ++ [e]).

Definition panic {A} (msg : string) : M A := fun tr => (Panic msg, tr).

(** Lift the outcome of an imported function. *)
Definition call {A} (o : outcome A) : M A := fun tr => (o, tr).

(** [defer d] followed by [body]: [d] runs when [body] returns and also
    while a panic of [body] unwinds, never after [os.Exit] and never while
    [body] is parked. *)
Definition defer {A B} (d : M B) (body : M A) : M A :=
  fun tr =>
    match body tr with
    | (Ret a, tr') =>
        match d tr' with
        | (Ret _, tr'') => (Ret a, tr'')
        | (Panic msg, tr'') => (Panic msg, tr'')
        | (Exit c, tr'') => (Exit c, tr'')
        | (Blocked, tr'') => (Blocked, tr'')
        end
    | (Panic msg, tr') =>
        match d tr' with
        | (Ret _, tr'') => (Panic msg, tr'')
        | (Panic msg', tr'') => (Panic msg', tr'')
        | (Exit c, tr'') => (Exit c, tr'')
        | (Blocked, tr'') => (Blocked, tr'')
        end
    | (Exit c, tr') => (Exit c, tr')
    | (Blocked, tr') => (Blocked, tr')
    end.

End App.

Declare Scope go_scope.
Delimit Scope go_scope with go.
Notation "'let*' x ':=' c1 'in' c2" := (bind c1 (fun x => c2))
  (at level 10, x name, c1 at level 100, c2 at level 200) : go_scope.
Notation "c1 ;; c2" := (bind c1 (fun _ => c2))
  (at level 100, c2 at level 200, right associativity) : go_scope.
Open Scope go_scope.

(** The functions of the imported packages.  Each one that runs code of its
    own ends in an [outcome]: the wiring cannot rule out that it panics. *)
Record Env `{P : Packages} : Type := {
  (* config.NewOptions() followed by option.ParseFlags() *)
  NewOptions : Options;
  (* logger.NewLogger(level): the logger and an error or nil *)
  NewLogger : string -> Logger * option error;
  (* bdkeeper.NewBDKeeper(dsn, logger); may return nil *)
  NewBDKeeper : (unit -> string) -> Logger -> outcome (option BDKeeper);
  (* storage.NewMemoryStorage(ctx, keeper, logger) *)
  NewMemoryStorage :
    option Context_ -> Keeper -> Logger -> outcome (option MemoryStorage);
  (* controllers.NewBaseController(ctx, storage, logger) *)
  NewBaseController :
    option Context_ -> option MemoryStorage -> Logger ->
    outcome (option BaseController);
  (* basecontr.Route() *)
  Route : option BaseController -> outcome Handler;
  (* context.WithTimeout on a non-nil parent: the derived context *)
  WithTimeout : Context_ -> Z -> Context_;
  (* srv.Shutdown(ctx) of net/http: nil or an error *)
  srv_Shutdown : HTTPServer -> Context_ -> option error;
  (* whether os.Interrupt is ever delivered to the process *)
  interrupt : bool;
}.

(** ** The package [app] *)

Section Program.
Context `{P : Packages} (env : Env).

(** The logger's methods and the standard [log] package: one event each. *)
Definition Logger_Warn (lg : Logger) (msg : string) : M unit :=
  emit (LogWarn msg).
Definition Logger_Debug (lg : Logger) (msg : string) : M unit :=
  emit (LogDebug msg).
Definition log_Println (msg : string) : M unit := emit (StdLog msg).
Definition log_Printf (msg : string) : M unit := emit (StdLog msg).

(** [log.Fatalln(err)]: print, then [os.Exit(1)]. *)
Definition log_Fatalln {A} (err : error) : M A :=
  fun tr => (Exit 1, tr ++ [StdFatal err]).

(** Calls into the imported packages, each recorded in the trace. *)
Definition bdkeeper_NewBDKeeper (dsn : unit -> string) (lg : Logger)
  : M (option BDKeeper) :=
  emit (CallNewBDKeeper (dsn tt)) ;; call (NewBDKeeper env dsn lg).

Definition storage_NewMemoryStorage
  (c : option Context_) (keeper : Keeper) (lg : Logger)
  : M (option MemoryStorage) :=
  emit (CallNewMemoryStorage keeper) ;; call (NewMemoryStorage env c keeper lg).

Definition controllers_NewBaseController
  (c : option Context_) (st : option MemoryStorage) (lg : Logger)
  : M (option BaseController) :=
  emit (CallNewBaseController st) ;; call (NewBaseController env c st lg).

Definition BaseController_Route (bc : option BaseController) : M Handler :=
  emit (CallRoute bc) ;; call (Route env bc).

Definition http_Server_Shutdown (s : HTTPServer) (c : Context_)
  : M (option error) :=
  emit (CallSrvShutdown s) ;; ret (srv_Shutdown env s c).

(** Whether the connection of [c] was released earlier in the run. *)
Definition released (c : BDKeeper) (tr : list event) : bool :=
  existsb
    (fun e => match e with
              | ReleaseConn c' => bool_decide (c' = c)
              | _ => false
              end) tr.

(** Modelled from the spec: the method [Close] of [bdkeeper.BDKeeper],
    whose package is not among the sources.  Section 4.1: it releases the
    connection; it is idempotent, and calling it on an already-closed or
    nil adapter is a no-op, never a crash. *)
Definition BDKeeper_Close (k : option BDKeeper) : M unit :=
  fun tr =>
    let tr := tr ++ [CallKeeperClose k] in
    match k with
    | None => (Ret tt, tr)
    | Some c =>
        if released c tr then (Ret tt, tr)
        else (Ret tt, tr ++ [ReleaseConn c])
    end.

(** [<-stopChan]: returns once the interrupt arrives, parks otherwise. *)
Definition await_signal : M unit :=
  fun tr =>
    if interrupt env then (Ret tt, tr ++ [AwaitSignal])
    else (Blocked, tr ++ [AwaitSignal]).

(** [func NewServer(ctx context.Context) *Server] *)
Definition NewServer (c : option Context_) : Server :=
  {| srv := None; ctx := c |}.

(** [func initializeKeeper(dataBaseDSN func() string, logger *logger.Logger)
    *bdkeeper.BDKeeper] *)
Definition initializeKeeper (dataBaseDSN : unit -> string) (logger : Logger)
  : M (option BDKeeper) :=
  if String.eqb (dataBaseDSN tt) "" then
    Logger_Warn logger "DataBaseDSN is empty" ;;
    ret None
  else
    bdkeeper_NewBDKeeper dataBaseDSN logger.

(** [func initializeStorage(ctx context.Context, keeper storage.Keeper,
    logger *logger.Logger) *storage.MemoryStorage] *)
Definition initializeStorage
  (c : option Context_) (keeper : Keeper) (logger : Logger)
  : M (option MemoryStorage) :=
  if Keeper_is_nil keeper then
    Logger_Warn logger "Keeper is nil, cannot initialize storage" ;;
    ret None
  else
    storage_NewMemoryStorage c keeper logger.

(** [func initializeBaseController(ctx, storage, logger)
    *controllers.BaseController] *)
Definition initializeBaseController
  (c : option Context_) (storage : option MemoryStorage) (logger : Logger)
  : M (option BaseController) :=
  controllers_NewBaseController c storage logger.

(** The body of the goroutine that [startServer] starts, given what
    [server.ListenAndServe()] returned ([None] is a nil error). *)
Definition listener_goroutine (err : option error) : M unit :=
  match err with
  | Some e =>
      if negb (errors_Is e ErrServerClosed) then log_Fatalln e else ret tt
  | None => ret tt
  end.

(** [func startServer(router chi.Router, address string) *http.Server] *)
Definition startServer (router : Router) (address : string)
  : M (option HTTPServer) :=
  let oneMegabyte := Z.shiftl 1 20 in
  let readTimeout := 3 * Second in
  let server :=
    {| Addr := address;
       Handler_ := router;
       ReadHeaderTimeout := readTimeout;
       WriteTimeout := readTimeout;
       IdleTimeout := readTimeout;
       ReadTimeout := readTimeout;
       MaxHeaderBytes := oneMegabyte;
       DisableGeneralOptionsHandler := false;
       TLSConfig := None;
       TLSNextProto := None;
       ConnState := None;
       ErrorLog := None;
       BaseContext := None;
       ConnContext := None |} in
  emit (GoListenAndServe server) ;;
  ret (Some server).

(** [func (server *Server) Serve()].  The result is the receiver as
    [Serve] leaves it. *)
Definition Serve (server : Server) : M Server :=
  let option := NewOptions env in
  let (nLogger, err) := NewLogger env (LogLevel option) in
  match err with
  | Some e => log_Fatalln e
  | None =>
      let* keeper := initializeKeeper (DataBaseDSN option) nLogger in
      (if is_nil keeper
       then Logger_Debug nLogger "Failed to initialize keeper"
       else ret tt) ;;
      defer (BDKeeper_Close keeper)
        (let* memoryStorage :=
           initializeStorage (ctx server) (KeeperOf keeper) nLogger in
         (if is_nil memoryStorage
          then Logger_Debug nLogger "Failed to initialize storage"
          else ret tt) ;;
         let* basecontr :=
           initializeBaseController (ctx server) memoryStorage nLogger in
         let reqLog := RequestLogger nLogger in
         let r := NewRouter in
         let r := Use r reqLog in
         let* route := BaseController_Route basecontr in
         let r := Mount r "/" route in
         let* started := startServer r (RunAddr option) in
         emit SignalNotify ;;
         await_signal ;;
         ret {| srv := started; ctx := ctx server |})
  end.

(** [func (server *Server) Shutdown(timeout time.Duration)].
    [context.WithTimeout] panics on a nil parent.  The [return] after the
    failure message skips both remaining log lines. *)
Definition Shutdown (server : Server) (timeout : Z) : M unit :=
  match ctx server with
  | None => panic "cannot create context from nil parent"
  | Some parent =>
      let ctxShutDown := WithTimeout env parent timeout in
      defer (emit CallCancel)
        (log_Println "attempting to stop the server" ;;
         match srv server with
         | Some s =>
             let* err := http_Server_Shutdown s ctxShutDown in
             match err with
             | Some e =>
                 if negb (errors_Is e ErrServerClosed) then
                   log_Printf ("server Shutdown Failed: " +:+ error_text e)
                 else
                   log_Println "server stopped" ;;
                   log_Println "server exited properly"
             | None =>
                 log_Println "server stopped" ;;
                 log_Println "server exited properly"
             end
         | None =>
             log_Println "server exited properly"
         end)
  end.

End Program.


(** ** Values and trace predicates used in the statements *)

Section Observations.
Context `{P : Packages}.

(** The [http.Server] that [startServer] builds, field by field. *)
Definition built_server (router : Router) (address : string) : HTTPServer :=
  {| Addr := address;
     Handler_ := router;
     ReadHeaderTimeout := 3000000000;
     WriteTimeout := 3000000000;
     IdleTimeout := 3000000000;
     ReadTimeout := 3000000000;
     MaxHeaderBytes := 1048576;
     DisableGeneralOptionsHandler := false;
     TLSConfig := None;
     TLSNextProto := None;
     ConnState := None;
     ErrorLog := None;
     BaseContext := None;
     ConnContext := None |}.

(** The router [Serve] hands to [startServer]. *)
Definition built_router (lg : Logger) (h : Handler) : Router :=
  Mount (Use NewRouter (RequestLogger lg)) "/" h.

Definition is_close (e : event) : bool :=
  match e with CallKeeperClose _ => true | _ => false end.

Definition is_listener_stop (e : event) : bool :=
  match e with CallSrvShutdown _ => true | _ => false end.

(** How often [Close] is invoked in a trace. *)
Fixpoint closes (tr : list event) : nat :=
  match tr with
  | [] => 0%nat
  | e :: tr' => ((if is_close e then 1 else 0) + closes tr')%nat
  end.

(** Every invocation of [Close] in [tr] comes after the listener was
    stopped; [stopped] tells whether it was stopped before [tr]. *)
Fixpoint close_after_stop (stopped : bool) (tr : list event) : bool :=
  match tr with
  | [] => true
  | e :: tr' =>
      if is_close e then stopped && close_after_stop stopped tr'
      else close_after_stop (stopped || is_listener_stop e) tr'
  end.

(** The shutdown order of section 5 of the specification, on one trace. *)
Definition closed_once_after_listener_stop (tr : list event) : Prop :=
  close_after_stop false tr = true /\ closes tr = 1%nat.

(** No line printed by [log.Fatalln]. *)
Definition fatal_free (tr : list event) : Prop :=
  forall e, ~ In (StdFatal e) tr.

(** A computation that only appends to the trace, and nothing fatal. *)
Definition quiet {A} (m : M A) : Prop :=
  forall tr, exists tr', snd (m tr) = tr ++ tr' /\ fatal_free tr'.

End Observations.

Section Counting.
Context `{P : Packages} (env : Env).

Definition is_listen (e : event) : bool :=
  match e with GoListenAndServe _ => true | _ => false end.

Definition is_cancel (e : event) : bool :=
  match e with CallCancel => true | _ => false end.

Definition is_open_attempt (e : event) : bool :=
  match e with CallNewBDKeeper _ => true | _ => false end.

(** How many events of a trace satisfy [p]. *)
Fixpoint count_events (p : event -> bool) (tr : list event) : nat :=
  match tr with
  | [] => 0%nat
  | e :: tr' => ((if p e then 1 else 0) + count_events p tr')%nat
  end.

(** The trace ends with an invocation of [Close], followed at most by the
    release of the connection that this invocation performs. *)
Definition ends_with_close (tr : list event) : bool :=
  match rev tr with
  | CallKeeperClose _ :: _ => true
  | ReleaseConn _ :: CallKeeperClose _ :: _ => true
  | _ => false
  end.

(** The events [Shutdown] may produce: log lines, the stop of the listener
    and the release of the timeout context. *)
Definition is_shutdown_event (e : event) : bool :=
  match e with
  | StdLog _ | CallSrvShutdown _ | CallCancel => true
  | _ => false
  end.

(** [srv.Shutdown] does not fail for [server], or there is no [srv] to
    shut down: the condition under which [Shutdown] does not take its
    early [return]. *)
Definition shutdown_clean (server : Server) (parent : Context_)
  (timeout : Z) : bool :=
  match srv server with
  | None => true
  | Some s =>
      match srv_Shutdown env s (WithTimeout env parent timeout) with
      | None => true
      | Some e => errors_Is e ErrServerClosed
      end
  end.

End Counting.

(** ** The storage contract *)

Module Storage.

(** Modelled from the spec: the price record of section 3, keyed by a
    stable key, with a price (in hundredths) and a timestamp.  The package
    [storage] is not among the sources. *)
Record PriceRecord : Type := {
  key : string;
  price : Z;
  ts : Z;
}.

(** Modelled from the spec: the error taxonomy of section 7. *)
Inductive StorageError : Type :=
| ConnectionError
| NotFoundError
| PersistenceError
| StorageUnavailable.

(** Modelled from the spec: the backing store adapter of section 4.1, as
    the cache sees it.  [durable] is what the store holds; [faults] says,
    for the durable writes to come, which of them fail ([true]). *)
Record Adapter : Type := {
  durable : gmap string PriceRecord;
  faults : list bool;
}.

(** Modelled from the spec: [Open(descriptor)] fails with
    [ConnectionError] when the descriptor is empty; [db] is what the store
    at that descriptor holds. *)
Definition Open (db : gmap string PriceRecord) (descriptor : string)
  : Adapter + StorageError :=
  if String.eqb descriptor "" then inr ConnectionError
  else inl {| durable := db; faults := [] |}.

(** Modelled from the spec: [Fetch(key)] retrieves a single record or
    reports that there is none. *)
Definition Fetch (a : Adapter) (k : string) : PriceRecord + StorageError :=
  match durable a !! k with
  | Some r => inl r
  | None => inr NotFoundError
  end.

(** Modelled from the spec: [Upsert(record)] durably persists a record,
    replacing any record of the same key, or fails; a failed write leaves
    the store as it was (the cache treats each [Upsert] as atomic). *)
Definition Upsert (a : Adapter) (r : PriceRecord)
  : Adapter * option StorageError :=
  match faults a with
  | true :: rest =>
      ({| durable := durable a; faults := rest |}, Some PersistenceError)
  | false :: rest =>
      ({| durable := <[key r := r]> (durable a); faults := rest |}, None)
  | [] =>
      ({| durable := <[key r := r]> (durable a); faults := [] |}, None)
  end.

(** Modelled from the spec: the cache of section 4.2 with the states of its
    life cycle.  A [Ready] cache holds the in-memory map and the adapter it
    delegates to. *)
Inductive Cache : Type :=
| Unavailable
| Ready (mem : gmap string PriceRecord) (a : Adapter)
| Closed.

(** Modelled from the spec: [New] fails soft; with a nil adapter it yields
    the [Unavailable] cache. *)
Definition New (adapter : option Adapter) : Cache :=
  match adapter with
  | None => Unavailable
  | Some a => Ready ∅ a
  end.

(** Modelled from the spec: [Get(key)] checks the in-memory map first; on a
    miss it delegates to [Fetch], populates the map on success and returns
    [NotFoundError] if the adapter has no record either.  Without storage
    every [Get] surfaces [StorageUnavailable]. *)
Definition Get (c : Cache) (k : string)
  : Cache * (PriceRecord + StorageError) :=
  match c with
  | Ready mem a =>
      match mem !! k with
      | Some r => (c, inl r)
      | None =>
          match Fetch a k with
          | inl r => (Ready (<[k := r]> mem) a, inl r)
          | inr e => (c, inr e)
          end
      end
  | Unavailable | Closed => (c, inr StorageUnavailable)
  end.

(** Modelled from the spec: the roll-back of [Put], the in-memory map
    with the entry at [k] put back to its prior value [prior]. *)
Definition rollback (mem : gmap string PriceRecord) (k : string)
  (prior : option PriceRecord) : gmap string PriceRecord :=
  match prior with
  | Some r0 => <[k := r0]> mem
  | None => delete k mem
  end.

(** Modelled from the spec: [Put(record)] is write-through: it updates the
    in-memory map and calls [Upsert] before acknowledging; if the durable
    write fails the operation fails as a whole with [PersistenceError] and
    the map is rolled back to its prior value for that key. *)
Definition Put (c : Cache) (r : PriceRecord)
  : Cache * option StorageError :=
  match c with
  | Ready mem a =>
      let prior := mem !! key r in
      let mem' := <[key r := r]> mem in
      match Upsert a r with
      | (a', None) => (Ready mem' a', None)
      | (a', Some _) =>
          (Ready (rollback mem' (key r) prior) a', Some PersistenceError)
      end
  | Unavailable | Closed => (c, Some StorageUnavailable)
  end.

End Storage.

(** ** A concrete instance of the imported packages *)

(** Loggers are their level, adapters their descriptor, a storage is the
    adapter pointer it wraps and a controller records whether it was given
    a storage. *)
Definition demo_packages : Packages :=
  {| Logger := string;
     BDKeeper := string;
     BDKeeper_eq_dec := _;
     MemoryStorage := option string;
     BaseController := bool;
     Handler := unit;
     Context_ := unit |}.

(** An environment in which every imported constructor returns. *)
Definition demo_env (dsn : string) (logger_error : option error)
  (intr : bool) : @Env demo_packages :=
  @Build_Env demo_packages
    {| LogLevel := "info"; DataBaseDSN := fun _ => dsn; RunAddr := ":8080" |}
    (fun level => (level, logger_error))
    (fun d _ => Ret (Some (d tt)))
    (fun _ k _ =>
       match k with
       | KeeperNil => Ret None
       | KeeperOf p => Ret (Some p)
       end)
    (fun _ st _ => Ret (Some (negb (is_nil st))))
    (fun _ => Ret tt)
    (fun c _ => c)
    (fun _ _ => None)
    intr.

(** A server as [NewServer] returns it for a live context. *)
Definition demo_server : @Server demo_packages :=
  @NewServer demo_packages (Some tt).

(** The same environment, except that [storage.NewMemoryStorage] panics. *)
Definition panicking_env (dsn : string) : @Env demo_packages :=
  @Build_Env demo_packages
    (NewOptions (demo_env dsn None true))
    (NewLogger (demo_env dsn None true))
    (NewBDKeeper (demo_env dsn None true))
    (fun _ _ _ => Panic "storage: cannot load")
    (NewBaseController (demo_env dsn None true))
    (Route (demo_env dsn None true))
    (WithTimeout (demo_env dsn None true))
    (srv_Shutdown (demo_env dsn None true))
    true.

(** The same environment, except that [srv.Shutdown] fails with [err]. *)
Definition failing_shutdown_env (err : error) : @Env demo_packages :=
  @Build_Env demo_packages
    (NewOptions (demo_env "" None true))
    (NewLogger (demo_env "" None true))
    (NewBDKeeper (demo_env "" None true))
    (NewMemoryStorage (demo_env "" None true))
    (NewBaseController (demo_env "" None true))
    (Route (demo_env "" None true))
    (WithTimeout (demo_env "" None true))
    (fun _ _ => Some err)
    true.

(** * Properties *)

(** ** Runs of [Serve] *)

Ltac run_app :=
  unfold Serve, Shutdown, initializeKeeper, initializeStorage,
    initializeBaseController, bdkeeper_NewBDKeeper, storage_NewMemoryStorage,
    controllers_NewBaseController, BaseController_Route,
    http_Server_Shutdown, startServer, listener_goroutine, await_signal,
    BDKeeper_Close, Logger_Warn, Logger_Debug, log_Println, log_Printf,
    log_Fatalln, defer, bind, emit, ret, call, panic.

Section ServeRuns.
Context `{P : Packages} (env : Env).

(** The run of [Serve] with an empty connection descriptor, when the
    imported constructors return. *)
Lemma Serve_empty_dsn (server : Server) lg ms bc h :
  NewLogger env (LogLevel (NewOptions env)) = (lg, None) ->
  DataBaseDSN (NewOptions env) tt = "" ->
  NewMemoryStorage env (ctx server) (KeeperOf None) lg = Ret ms ->
  NewBaseController env (ctx server) ms lg = Ret bc ->
  Route env bc = Ret h ->
  let s := built_server (built_router lg h) (RunAddr (NewOptions env)) in
  Serve env server [] =
    (if interrupt env
     then Ret {| srv := Some s; ctx := ctx server |} else Blocked,
     [LogWarn "DataBaseDSN is empty";
      LogDebug "Failed to initialize keeper";
      CallNewMemoryStorage (KeeperOf None)] ++
     (if is_nil ms then [LogDebug "Failed to initialize storage"] else []) ++
     [CallNewBaseController ms; CallRoute bc; GoListenAndServe s;
      SignalNotify; AwaitSignal] ++
     (if interrupt env then [CallKeeperClose None] else [])).
Proof.
  intros Hlog Hdsn Hms Hbc Hr s.
  run_app. rewrite Hlog, Hdsn. simpl. rewrite Hms.
  destruct ms; simpl; rewrite Hbc, Hr; simpl;
    destruct (interrupt env); reflexivity.
Qed.

(** The run of [Serve] with a descriptor that [NewBDKeeper] opens. *)
Lemma Serve_opened (server : Server) lg k ms bc h :
  NewLogger env (LogLevel (NewOptions env)) = (lg, None) ->
  DataBaseDSN (NewOptions env) tt <> "" ->
  NewBDKeeper env (DataBaseDSN (NewOptions env)) lg = Ret (Some k) ->
  NewMemoryStorage env (ctx server) (KeeperOf (Some k)) lg = Ret ms ->
  NewBaseController env (ctx server) ms lg = Ret bc ->
  Route env bc = Ret h ->
  let s := built_server (built_router lg h) (RunAddr (NewOptions env)) in
  Serve env server [] =
    (if interrupt env
     then Ret {| srv := Some s; ctx := ctx server |} else Blocked,
     [CallNewBDKeeper (DataBaseDSN (NewOptions env) tt);
      CallNewMemoryStorage (KeeperOf (Some k))] ++
     (if is_nil ms then [LogDebug "Failed to initialize storage"] else []) ++
     [CallNewBaseController ms; CallRoute bc; GoListenAndServe s;
      SignalNotify; AwaitSignal] ++
     (if interrupt env
      then [CallKeeperClose (Some k); ReleaseConn k] else [])).
Proof.
  intros Hlog Hdsn Hk Hms Hbc Hr s.
  run_app. rewrite Hlog.
  apply String.eqb_neq in Hdsn. rewrite Hdsn. simpl. rewrite Hk. simpl.
  rewrite Hms.
  destruct ms; simpl; rewrite Hbc, Hr; simpl;
    destruct (interrupt env); reflexivity.
Qed.

(** The run of [Serve] when [NewBDKeeper] is called and returns nil. *)
Lemma Serve_not_opened (server : Server) lg ms bc h :
  NewLogger env (LogLevel (NewOptions env)) = (lg, None) ->
  DataBaseDSN (NewOptions env) tt <> "" ->
  NewBDKeeper env (DataBaseDSN (NewOptions env)) lg = Ret None ->
  NewMemoryStorage env (ctx server) (KeeperOf None) lg = Ret ms ->
  NewBaseController env (ctx server) ms lg = Ret bc ->
  Route env bc = Ret h ->
  let s := built_server (built_router lg h) (RunAddr (NewOptions env)) in
  Serve env server [] =
    (if interrupt env
     then Ret {| srv := Some s; ctx := ctx server |} else Blocked,
     [CallNewBDKeeper (DataBaseDSN (NewOptions env) tt);
      LogDebug "Failed to initialize keeper";
      CallNewMemoryStorage (KeeperOf None)] ++
     (if is_nil ms then [LogDebug "Failed to initialize storage"] else []) ++
     [CallNewBaseController ms; CallRoute bc; GoListenAndServe s;
      SignalNotify; AwaitSignal] ++
     (if interrupt env then [CallKeeperClose None] else [])).
Proof.
  intros Hlog Hdsn Hk Hms Hbc Hr s.
  run_app. rewrite Hlog.
  apply String.eqb_neq in Hdsn. rewrite Hdsn. simpl. rewrite Hk. simpl.
  rewrite Hms.
  destruct ms; simpl; rewrite Hbc, Hr; simpl;
    destruct (interrupt env); reflexivity.
Qed.

(** Why [initializeKeeper] returns nil: the descriptor is empty, or
    [NewBDKeeper] returned nil. *)
Lemma initializeKeeper_nil (dsn : unit -> string) (lg : Logger)
  (tr0 tr1 : list event) :
  initializeKeeper env dsn lg tr0 = (Ret None, tr1) ->
  dsn tt = "" \/ (dsn tt <> "" /\ NewBDKeeper env dsn lg = Ret None).
Proof.
  unfold initializeKeeper.
  destruct (String.eqb (dsn tt) "") eqn:Hdsn.
  - intros _. left. apply String.eqb_eq. exact Hdsn.
  - run_app. intros H. right. split.
    + apply String.eqb_neq. exact Hdsn.
    + destruct (NewBDKeeper env dsn lg) as [[k|]| | |];
        simpl in H; inversion H; reflexivity.
Qed.

End ServeRuns.

(** ** Start-up without a connection descriptor *)

(** C1: with an empty connection descriptor ([DataBaseDSN() == ""]),
    [initializeKeeper] logs a warning and returns nil, [NewBDKeeper] is
    never called, and [Serve] goes on to start the HTTP server: it prints
    no fatal line and ends neither in an exit nor in a panic; it serves
    until the interrupt and then returns. *)
Theorem empty_descriptor_starts_degraded `{P : Packages} (env : Env)
  (server : Server) lg ms bc h :
  NewLogger env (LogLevel (NewOptions env)) = (lg, None) ->
  DataBaseDSN (NewOptions env) tt = "" ->
  NewMemoryStorage env (ctx server) (KeeperOf None) lg = Ret ms ->
  NewBaseController env (ctx server) ms lg = Ret bc ->
  Route env bc = Ret h ->
  let s := built_server (built_router lg h) (RunAddr (NewOptions env)) in
  (forall tr0,
     initializeKeeper env (DataBaseDSN (NewOptions env)) lg tr0 =
       (Ret None, tr0 ++ [LogWarn "DataBaseDSN is empty"])) /\
  (forall dsn, ~ In (CallNewBDKeeper dsn) (snd (Serve env server []))) /\
  In (GoListenAndServe s) (snd (Serve env server [])) /\
  fatal_free (snd (Serve env server [])) /\
  fst (Serve env server []) =
    (if interrupt env
     then Ret {| srv := Some s; ctx := ctx server |} else Blocked).
Proof.
  intros Hlog Hdsn Hms Hbc Hr s.
  rewrite (Serve_empty_dsn env server lg ms bc h Hlog Hdsn Hms Hbc Hr).
  fold s. cbn [fst snd]. split; [|split; [|split; [|split]]].
  - intros tr0. unfold initializeKeeper. rewrite Hdsn. reflexivity.
  - intros dsn. destruct (is_nil ms), (interrupt env); simpl;
      intuition discriminate.
  - destruct (is_nil ms); simpl; tauto.
  - intros e. destruct (is_nil ms), (interrupt env); simpl;
      intuition discriminate.
  - reflexivity.
Qed.

Lemma empty_descriptor_starts_degraded_witness :
  let s := @built_server demo_packages
             (@built_router demo_packages "info" tt) ":8080" in
  In (GoListenAndServe s) (snd (Serve (demo_env "" None true) demo_server [])) /\
  fst (Serve (demo_env "" None true) demo_server []) =
    Ret {| srv := Some s; ctx := Some tt |}.
Proof.
  pose proof (@empty_descriptor_starts_degraded demo_packages
                (demo_env "" None true) demo_server
                "info" (Some None) (Some true) tt
                eq_refl eq_refl eq_refl eq_refl eq_refl) as H.
  simpl in H. destruct H as (_ & _ & Hgo & _ & Hret).
  split; [exact Hgo | exact Hret].
Defined.

(** C2: [Serve] defers [keeper.Close()] unconditionally; when
    [initializeKeeper] returned nil (the descriptor is empty, or the
    constructor gave nil) the deferred call still runs as [Serve] returns,
    it is a no-op (no connection is released) and it does not panic:
    [Serve] returns normally and the call on the nil keeper is its last
    step. *)
Theorem deferred_close_on_nil_keeper `{P : Packages} (env : Env)
  (server : Server) lg tr1 ms bc h :
  NewLogger env (LogLevel (NewOptions env)) = (lg, None) ->
  initializeKeeper env (DataBaseDSN (NewOptions env)) lg [] = (Ret None, tr1) ->
  NewMemoryStorage env (ctx server) (KeeperOf None) lg = Ret ms ->
  NewBaseController env (ctx server) ms lg = Ret bc ->
  Route env bc = Ret h ->
  interrupt env = true ->
  (forall tr0,
     BDKeeper_Close None tr0 = (Ret tt, tr0 ++ [CallKeeperClose None])) /\
  returns (fst (Serve env server [])) = true /\
  (exists pre,
     snd (Serve env server []) = pre ++ [CallKeeperClose None] /\
     closes pre = 0%nat) /\
  (forall k, ~ In (ReleaseConn k) (snd (Serve env server []))).
Proof.
  intros Hlog Hnil Hms Hbc Hr Hint.
  split; [reflexivity|].
  destruct (initializeKeeper_nil env _ lg [] tr1 Hnil) as [Hdsn|[Hdsn Hk]].
  - rewrite (Serve_empty_dsn env server lg ms bc h Hlog Hdsn Hms Hbc Hr).
    rewrite Hint. cbn [fst snd]. split; [reflexivity|split].
    + eexists
        ([LogWarn "DataBaseDSN is empty";
          LogDebug "Failed to initialize keeper";
          CallNewMemoryStorage (KeeperOf None)] ++
         (if is_nil ms then [LogDebug "Failed to initialize storage"] else []) ++
         [CallNewBaseController ms; CallRoute bc;
          GoListenAndServe
            (built_server (built_router lg h) (RunAddr (NewOptions env)));
          SignalNotify; AwaitSignal]).
      destruct (is_nil ms); split; reflexivity.
    + intros k. destruct (is_nil ms); simpl; intuition discriminate.
  - rewrite (Serve_not_opened env server lg ms bc h Hlog Hdsn Hk Hms Hbc Hr).
    rewrite Hint. cbn [fst snd]. split; [reflexivity|split].
    + eexists
        ([CallNewBDKeeper (DataBaseDSN (NewOptions env) tt);
          LogDebug "Failed to initialize keeper";
          CallNewMemoryStorage (KeeperOf None)] ++
         (if is_nil ms then [LogDebug "Failed to initialize storage"] else []) ++
         [CallNewBaseController ms; CallRoute bc;
          GoListenAndServe
            (built_server (built_router lg h) (RunAddr (NewOptions env)));
          SignalNotify; AwaitSignal]).
      destruct (is_nil ms); split; reflexivity.
    + intros k. destruct (is_nil ms); simpl; intuition discriminate.
Qed.

Lemma deferred_close_on_nil_keeper_witness :
  returns (fst (Serve (demo_env "" None true) demo_server [])) = true /\
  last (snd (Serve (demo_env "" None true) demo_server [])) =
    Some (CallKeeperClose None).
Proof.
  pose proof (@deferred_close_on_nil_keeper demo_packages
                (demo_env "" None true) demo_server
                "info" [LogWarn "DataBaseDSN is empty"] (Some None)
                (Some true) tt
                eq_refl eq_refl eq_refl eq_refl eq_refl eq_refl) as H.
  destruct H as (_ & Hret & _ & _).
  split; [exact Hret | reflexivity].
Defined.

(** ** The nil keeper behind the interface *)

(** C4, evaluated on the code: [initializeStorage] returns nil, with a
    warning, for the nil interface, and for every other [storage.Keeper]
    it returns what [storage.NewMemoryStorage] returns.  The keeper that
    [Serve] passes for an empty descriptor is an interface holding a nil
    [*bdkeeper.BDKeeper]: it has no adapter behind it, yet it is not the nil
    interface, so [storage.NewMemoryStorage] is called with it. *)
Theorem initializeStorage_nil_pointer_keeper `{P : Packages} (env : Env)
  (c : option Context_) (lg : Logger) (tr : list event) :
  initializeStorage env c KeeperNil lg tr =
    (Ret None, tr ++ [LogWarn "Keeper is nil, cannot initialize storage"]) /\
  (forall k, Keeper_is_nil k = false ->
     initializeStorage env c k lg tr =
       (NewMemoryStorage env c k lg, tr ++ [CallNewMemoryStorage k])) /\
  Keeper_adapter (KeeperOf None) = None /\
  initializeStorage env c (KeeperOf None) lg tr =
    (NewMemoryStorage env c (KeeperOf None) lg,
     tr ++ [CallNewMemoryStorage (KeeperOf None)]).
Proof.
  split; [|split; [|split]].
  - reflexivity.
  - intros k Hk. unfold initializeStorage. rewrite Hk.
    unfold storage_NewMemoryStorage, bind, emit, call. reflexivity.
  - reflexivity.
  - reflexivity.
Qed.

(** C7, evaluated on the code: with an empty descriptor [Serve] never
    takes the nil branch of [initializeStorage].  It calls
    [storage.NewMemoryStorage] with an interface holding the nil pointer
    and hands whatever that returns to [initializeBaseController]; the
    warning of the nil branch is not logged. *)
Theorem empty_descriptor_storage_is_constructed `{P : Packages} (env : Env)
  (server : Server) lg ms bc h :
  NewLogger env (LogLevel (NewOptions env)) = (lg, None) ->
  DataBaseDSN (NewOptions env) tt = "" ->
  NewMemoryStorage env (ctx server) (KeeperOf None) lg = Ret ms ->
  NewBaseController env (ctx server) ms lg = Ret bc ->
  Route env bc = Ret h ->
  In (CallNewMemoryStorage (KeeperOf None)) (snd (Serve env server [])) /\
  In (CallNewBaseController ms) (snd (Serve env server [])) /\
  ~ In (LogWarn "Keeper is nil, cannot initialize storage")
       (snd (Serve env server [])).
Proof.
  intros Hlog Hdsn Hms Hbc Hr.
  rewrite (Serve_empty_dsn env server lg ms bc h Hlog Hdsn Hms Hbc Hr).
  cbn [snd].
  destruct (is_nil ms), (interrupt env); simpl;
    (split; [tauto | split; [tauto | intuition discriminate]]).
Qed.

Lemma empty_descriptor_storage_is_constructed_witness :
  In (CallNewBaseController (P := demo_packages) (Some None))
     (snd (Serve (demo_env "" None true) demo_server [])).
Proof.
  exact (proj1 (proj2
    (@empty_descriptor_storage_is_constructed demo_packages
       (demo_env "" None true) demo_server
       "info" (Some None) (Some true) tt
       eq_refl eq_refl eq_refl eq_refl eq_refl))).
Defined.

(** ** Shutdown order *)

Lemma closes_app `{P : Packages} (tr1 tr2 : list event) :
  closes (tr1 ++ tr2) = (closes tr1 + closes tr2)%nat.
Proof.
  induction tr1 as [|e tr1 IH]; simpl; [reflexivity|].
  rewrite IH. lia.
Qed.

(** [Shutdown] never invokes the adapter's [Close]. *)
Lemma Shutdown_never_closes `{P : Packages} (env : Env) (server : Server)
  (timeout : Z) (tr0 : list event) :
  closes (snd (Shutdown env server timeout tr0)) = closes tr0.
Proof.
  run_app. destruct (ctx server) as [parent|]; [|reflexivity].
  destruct (srv server) as [s|]; simpl.
  - destruct (srv_Shutdown env s (WithTimeout env parent timeout)) as [e|];
      simpl; [destruct (errors_Is e ErrServerClosed); simpl|];
      rewrite !closes_app; simpl; lia.
  - rewrite !closes_app; simpl; lia.
Qed.

(** [Shutdown] on a started server: the listener is stopped, then either
    both closing lines are logged or, on a failure other than
    [http.ErrServerClosed], the failure alone; the timeout context is
    released in every case. *)
Lemma Shutdown_started `{P : Packages} (env : Env) (server : Server)
  (timeout : Z) (parent : Context_) (s : HTTPServer) (tr0 : list event) :
  srv server = Some s ->
  ctx server = Some parent ->
  Shutdown env server timeout tr0 =
    (Ret tt,
     tr0 ++
     [StdLog "attempting to stop the server"; CallSrvShutdown s] ++
     match srv_Shutdown env s (WithTimeout env parent timeout) with
     | Some e =>
         if errors_Is e ErrServerClosed
         then [StdLog "server stopped"; StdLog "server exited properly"]
         else [StdLog ("server Shutdown Failed: " +:+ error_text e)]
     | None => [StdLog "server stopped"; StdLog "server exited properly"]
     end ++ [CallCancel]).
Proof.
  intros Hsrv Hctx. run_app. rewrite Hctx, Hsrv. simpl.
  destruct (srv_Shutdown env s (WithTimeout env parent timeout)) as [e|];
    simpl; [destruct (errors_Is e ErrServerClosed); simpl|];
    rewrite <- !app_assoc; reflexivity.
Qed.

(** C3 as stated fails on the code: in a run of [Serve] whose adapter was
    opened and that ends with the interrupt, [Close] is invoked once, but
    no stop of the HTTP listener comes before it. *)
Lemma close_comes_before_listener_stop :
  In (CallNewBDKeeper (P := demo_packages) "postgres://prices")
     (snd (Serve (demo_env "postgres://prices" None true) demo_server [])) /\
  closes (snd (Serve (demo_env "postgres://prices" None true) demo_server []))
    = 1%nat /\
  ~ closed_once_after_listener_stop
      (snd (Serve (demo_env "postgres://prices" None true) demo_server [])).
Proof.
  split; [|split].
  - vm_compute. tauto.
  - vm_compute. reflexivity.
  - intros [Horder _]. vm_compute in Horder. discriminate.
Qed.

(** C3, amended: on the signal path of a process whose adapter was
    opened, [Serve] invokes the adapter's [Close] exactly once, as its
    last step, after the listener goroutine was started and the interrupt
    was received.  The listener has not been stopped by then: [Serve]
    never calls [srv.Shutdown], and [Shutdown], which does, never invokes
    [Close]. *)
Theorem close_once_as_Serve_returns `{P : Packages} (env : Env)
  (server : Server) lg k ms bc h :
  NewLogger env (LogLevel (NewOptions env)) = (lg, None) ->
  DataBaseDSN (NewOptions env) tt <> "" ->
  NewBDKeeper env (DataBaseDSN (NewOptions env)) lg = Ret (Some k) ->
  NewMemoryStorage env (ctx server) (KeeperOf (Some k)) lg = Ret ms ->
  NewBaseController env (ctx server) ms lg = Ret bc ->
  Route env bc = Ret h ->
  interrupt env = true ->
  let s := built_server (built_router lg h) (RunAddr (NewOptions env)) in
  closes (snd (Serve env server [])) = 1%nat /\
  (exists pre,
     snd (Serve env server []) =
       pre ++ [CallKeeperClose (Some k); ReleaseConn k] /\
     last pre = Some AwaitSignal /\
     In (GoListenAndServe s) pre) /\
  (forall s', ~ In (CallSrvShutdown s') (snd (Serve env server []))) /\
  (forall sv timeout tr0,
     closes (snd (Shutdown env sv timeout tr0)) = closes tr0).
Proof.
  intros Hlog Hdsn Hk Hms Hbc Hr Hint s.
  rewrite (Serve_opened env server lg k ms bc h Hlog Hdsn Hk Hms Hbc Hr).
  fold s. rewrite Hint. cbn [snd]. split; [|split; [|split]].
  - destruct (is_nil ms); reflexivity.
  - exists
      ([CallNewBDKeeper (DataBaseDSN (NewOptions env) tt);
        CallNewMemoryStorage (KeeperOf (Some k))] ++
       (if is_nil ms then [LogDebug "Failed to initialize storage"] else []) ++
       [CallNewBaseController ms; CallRoute bc; GoListenAndServe s;
        SignalNotify; AwaitSignal]).
    destruct (is_nil ms); simpl; (split; [reflexivity | split; [reflexivity | tauto]]).
  - intros s'. destruct (is_nil ms); simpl; intuition discriminate.
  - intros sv timeout tr0. apply Shutdown_never_closes.
Qed.

Lemma close_once_as_Serve_returns_witness :
  closes (snd (Serve (demo_env "postgres://prices" None true) demo_server []))
    = 1%nat /\
  forall s' : @HTTPServer demo_packages,
    ~ In (CallSrvShutdown s')
         (snd (Serve (demo_env "postgres://prices" None true) demo_server [])).
Proof.
  pose proof (@close_once_as_Serve_returns demo_packages
                (demo_env "postgres://prices" None true) demo_server
                "info" "postgres://prices" (Some (Some "postgres://prices"))
                (Some true) tt
                eq_refl ltac:(discriminate) eq_refl eq_refl eq_refl eq_refl
                eq_refl) as H.
  destruct H as (Honce & _ & Hstop & _).
  split; [exact Honce | exact Hstop].
Defined.

(** ** Fatal failures *)

Section Quiet.
Context `{P : Packages} (env : Env).

Lemma fatal_free_nil : fatal_free (P := P) [].
Proof. intros e []. Qed.

Lemma fatal_free_app (tr1 tr2 : list event) :
  fatal_free tr1 -> fatal_free tr2 -> fatal_free (tr1 ++ tr2).
Proof.
  intros H1 H2 e Hin. apply in_app_or in Hin as [Hin|Hin].
  - exact (H1 e Hin).
  - exact (H2 e Hin).
Qed.

Lemma quiet_ret {A} (a : A) : quiet (ret a).
Proof.
  intros tr. exists []. split; [symmetry; apply app_nil_r | apply fatal_free_nil].
Qed.

Lemma quiet_call {A} (o : outcome A) : quiet (call o).
Proof.
  intros tr. exists []. split; [symmetry; apply app_nil_r | apply fatal_free_nil].
Qed.

Lemma quiet_emit (e : event) :
  (forall err, e <> StdFatal err) -> quiet (emit e).
Proof.
  intros Hne tr. exists [e]. split; [reflexivity|].
  intros err [Heq|[]]. exact (Hne err Heq).
Qed.

Lemma quiet_bind {A B} (m : M A) (f : A -> M B) :
  quiet m -> (forall a, quiet (f a)) -> quiet (bind m f).
Proof.
  intros Hm Hf tr. unfold bind.
  destruct (Hm tr) as (t1 & E1 & F1).
  destruct (m tr) as [[a| | |] tr1]; simpl in E1; subst tr1;
    try (exists t1; split; [reflexivity | exact F1]).
  destruct (Hf a (tr ++ t1)) as (t2 & E2 & F2).
  exists (t1 ++ t2). split.
  - rewrite E2. symmetry. apply app_assoc.
  - apply fatal_free_app; assumption.
Qed.

Lemma quiet_defer {A B} (d : M B) (body : M A) :
  quiet d -> quiet body -> quiet (defer d body).
Proof.
  intros Hd Hb tr. unfold defer.
  destruct (Hb tr) as (t1 & E1 & F1).
  destruct (Hd (tr ++ t1)) as (t2 & E2 & F2).
  destruct (body tr) as [[a| | |] tr1]; simpl in E1; subst tr1;
    try (exists t1; split; [reflexivity | exact F1]);
    (exists (t1 ++ t2); split;
     [ destruct (d (tr ++ t1)) as [[b| | |] tr2]; simpl in *; subst tr2;
       symmetry; apply app_assoc
     | apply fatal_free_app; assumption ]).
Qed.

Lemma quiet_BDKeeper_Close (k : option BDKeeper) : quiet (BDKeeper_Close k).
Proof.
  intros tr. unfold BDKeeper_Close. destruct k as [c|].
  - destruct (released c (tr ++ [CallKeeperClose (Some c)])).
    + exists [CallKeeperClose (Some c)]. split; [reflexivity|].
      intros e [Heq|[]]. discriminate.
    + exists [CallKeeperClose (Some c); ReleaseConn c]. split.
      * simpl. rewrite <- app_assoc. reflexivity.
      * intros e [Heq|[Heq|[]]]; discriminate.
  - exists [CallKeeperClose None]. split; [reflexivity|].
    intros e [Heq|[]]. discriminate.
Qed.

Lemma quiet_await_signal : quiet (await_signal env).
Proof.
  intros tr. unfold await_signal. exists [AwaitSignal].
  destruct (interrupt env); (split; [reflexivity|]);
    intros e [Heq|[]]; discriminate.
Qed.

Ltac quiet_step :=
  first
    [ apply quiet_ret | apply quiet_call | apply quiet_await_signal
    | apply quiet_BDKeeper_Close
    | apply quiet_emit; intros ?; discriminate
    | apply quiet_bind; [| intros ?]
    | apply quiet_defer
    | match goal with |- quiet (if ?b then _ else _) => destruct b end ].

(** Past the construction of the logger, [Serve] prints no fatal line. *)
Lemma quiet_Serve_body (server : Server) (lg : Logger) :
  NewLogger env (LogLevel (NewOptions env)) = (lg, None) ->
  quiet (Serve env server).
Proof.
  intros Hlog. unfold Serve. rewrite Hlog.
  unfold initializeKeeper, initializeStorage, initializeBaseController,
    bdkeeper_NewBDKeeper, storage_NewMemoryStorage,
    controllers_NewBaseController, BaseController_Route, startServer,
    Logger_Warn, Logger_Debug.
  repeat quiet_step.
Qed.

End Quiet.

(** C8: fatal failures, and only those, end the process after a log line.
    In the listener goroutine an error of [ListenAndServe] that is not
    [http.ErrServerClosed] (as [errors.Is] decides) is printed by
    [log.Fatalln] and exits the process, while [http.ErrServerClosed] and a
    nil error are not fatal; in [Serve] an error of [logger.NewLogger] is
    printed and exits the process before anything else runs, and [Serve]
    prints a fatal line in no other case. *)
Theorem fatal_exactly_on_startup_failure `{P : Packages} (env : Env)
  (server : Server) :
  (forall err tr,
     listener_goroutine (P := P) (Some err) tr =
       if errors_Is err ErrServerClosed then (Ret tt, tr)
       else (Exit 1, tr ++ [StdFatal err])) /\
  (forall msg tr,
     listener_goroutine (P := P) (Some (ErrOther msg)) tr =
       (Exit 1, tr ++ [StdFatal (ErrOther msg)])) /\
  (forall tr,
     listener_goroutine (P := P) (Some ErrServerClosed) tr = (Ret tt, tr)) /\
  (forall tr, listener_goroutine (P := P) None tr = (Ret tt, tr)) /\
  (forall lg e,
     NewLogger env (LogLevel (NewOptions env)) = (lg, Some e) ->
     Serve env server [] = (Exit 1, [StdFatal e])) /\
  (forall e,
     In (StdFatal e) (snd (Serve env server [])) ->
     snd (NewLogger env (LogLevel (NewOptions env))) = Some e).
Proof.
  repeat split.
  - intros err tr. unfold listener_goroutine, log_Fatalln, ret.
    destruct (errors_Is err ErrServerClosed); reflexivity.
  - intros lg e Hlog. unfold Serve. rewrite Hlog. reflexivity.
  - intros e Hin.
    destruct (NewLogger env (LogLevel (NewOptions env))) as [lg [e'|]] eqn:Hlog.
    + unfold Serve in Hin. rewrite Hlog in Hin. simpl in Hin.
      destruct Hin as [Heq|[]]. injection Heq as ->. reflexivity.
    + destruct (quiet_Serve_body env server lg Hlog []) as (t & E & F).
      rewrite E in Hin. simpl in Hin. destruct (F e Hin).
Qed.

(** ** [Shutdown] before the server was started *)

(** C9 as stated fails on the code: the zero [Server] has a nil [srv] and
    a nil [ctx], and [Shutdown] on it panics in [context.WithTimeout]
    before it logs anything. *)
Lemma Shutdown_nil_context_panics :
  srv (P := demo_packages) (NewServer None) = None /\
  Shutdown (demo_env "" None true) (NewServer None) (5 * Second) [] =
    (Panic "cannot create context from nil parent", []).
Proof. split; reflexivity. Qed.

(** C9, amended: on a [Server] with a non-nil context whose HTTP server
    was never started ([srv] is nil), [Shutdown] is a safe no-op: it logs
    its two lines, releases the timeout context and returns, without a
    panic and without any attempt to shut a listener down. *)
Theorem Shutdown_without_server `{P : Packages} (env : Env)
  (server : Server) (timeout : Z) (parent : Context_) (tr0 : list event) :
  srv server = None ->
  ctx server = Some parent ->
  Shutdown env server timeout tr0 =
    (Ret tt,
     tr0 ++ [StdLog "attempting to stop the server";
             StdLog "server exited properly";
             CallCancel]) /\
  (forall s, ~ In (CallSrvShutdown s)
               (skipn (length tr0) (snd (Shutdown env server timeout tr0)))).
Proof.
  intros Hsrv Hctx.
  assert (Shutdown env server timeout tr0 =
            (Ret tt,
             tr0 ++ [StdLog "attempting to stop the server";
                     StdLog "server exited properly";
                     CallCancel])) as Hrun.
  { run_app. rewrite Hctx, Hsrv. simpl.
    rewrite <- !app_assoc. reflexivity. }
  split; [exact Hrun|].
  intros s. rewrite Hrun. cbn [snd].
  rewrite skipn_app, skipn_all, Nat.sub_diag. simpl.
  intuition discriminate.
Qed.

Lemma Shutdown_without_server_witness :
  Shutdown (demo_env "" None true) demo_server (5 * Second) [] =
    (Ret tt,
     [StdLog "attempting to stop the server";
      StdLog "server exited properly";
      CallCancel]).
Proof.
  exact (proj1
    (@Shutdown_without_server demo_packages (demo_env "" None true)
       demo_server (5 * Second) tt [] eq_refl eq_refl)).
Defined.

(** ** The server [startServer] configures *)

(** C10: for every router and address [startServer] returns a non-nil
    [*http.Server] whose [Addr] and [Handler] are the given ones, whose
    [ReadHeaderTimeout], [WriteTimeout], [IdleTimeout] and [ReadTimeout]
    are all three seconds, whose [MaxHeaderBytes] is [1 << 20] (one
    mebibyte) and whose TLS fields are nil; it starts the plain
    [ListenAndServe] goroutine for that server. *)
Theorem startServer_configuration `{P : Packages} (router : Router)
  (address : string) (tr : list event) :
  exists s,
    startServer router address tr = (Ret (Some s), tr ++ [GoListenAndServe s]) /\
    s = built_server router address /\
    Addr s = address /\
    Handler_ s = router /\
    ReadHeaderTimeout s = 3 * Second /\
    WriteTimeout s = 3 * Second /\
    IdleTimeout s = 3 * Second /\
    ReadTimeout s = 3 * Second /\
    3 * Second = 3000000000 /\
    MaxHeaderBytes s = Z.shiftl 1 20 /\
    Z.shiftl 1 20 = 1024 * 1024 /\
    TLSConfig s = None /\
    TLSNextProto s = None.
Proof.
  exists (built_server router address).
  repeat split.
Qed.

(** ** The storage contract: write-through and rollback *)

Section StorageFacts.
Import Storage.

(** A failed [Upsert] leaves the durable store as it was. *)
Lemma Upsert_failure_keeps_store (a a' : Adapter) (r : PriceRecord)
  (e : StorageError) :
  Upsert a r = (a', Some e) -> durable a' = durable a /\ e = PersistenceError.
Proof.
  unfold Upsert. destruct (faults a) as [|[|] rest]; intros H;
    inversion H; subst; split; reflexivity.
Qed.

(** Rolling back the entry just written restores the map. *)
Lemma rollback_insert (mem : gmap string PriceRecord) (r : PriceRecord) :
  rollback (<[key r := r]> mem) (key r) (mem !! key r) = mem.
Proof.
  unfold rollback. destruct (mem !! key r) as [r0|] eqn:Hprior.
  - rewrite insert_insert_eq. apply insert_id. exact Hprior.
  - rewrite delete_insert_eq. apply delete_id. exact Hprior.
Qed.

(** Without storage every operation surfaces [StorageUnavailable] and
    leaves the cache as it is. *)
Lemma Unavailable_operations (k : string) (r : PriceRecord) :
  Get (New None) k = (Unavailable, inr StorageUnavailable) /\
  Put (New None) r = (Unavailable, Some StorageUnavailable).
Proof. split; reflexivity. Qed.

End StorageFacts.

(** C5: for every record [r], if [Put r] succeeds then the [Get] of
    [r]'s key that follows returns [r]. *)
Theorem Put_then_Get (c c' : Storage.Cache) (r : Storage.PriceRecord) :
  Storage.Put c r = (c', None) ->
  Storage.Get c' (Storage.key r) = (c', inl r).
Proof.
  destruct c as [|mem a|]; simpl; try discriminate.
  destruct (Storage.Upsert a r) as [a' [e|]]; intros H; inversion H; subst.
  simpl. rewrite lookup_insert_eq. reflexivity.
Qed.

Lemma Put_then_Get_witness :
  let aapl := {| Storage.key := "AAPL"; Storage.price := 19050;
                 Storage.ts := 1 |} in
  let c' := Storage.Ready {[ "AAPL" := aapl ]}
              {| Storage.durable := {[ "AAPL" := aapl ]};
                 Storage.faults := [] |} in
  Storage.Get c' "AAPL" = (c', inl aapl).
Proof.
  intros aapl c'.
  apply (Put_then_Get
           (Storage.New (Some {| Storage.durable := ∅; Storage.faults := [] |}))
           c' aapl).
  reflexivity.
Defined.

(** C6: for every key with a prior record [r0], if the adapter's [Upsert]
    fails during [Put r] for that key, then [Put] returns
    [PersistenceError] and the in-memory map is rolled back: the [Get] of
    the key that follows returns [r0], not [r], and the map is the one
    before the [Put]. *)
Theorem failed_Put_rolls_back (mem : gmap string Storage.PriceRecord)
  (a a' : Storage.Adapter) (r r0 : Storage.PriceRecord)
  (e : Storage.StorageError) (c0 : Storage.Cache) :
  Storage.Get (Storage.Ready mem a) (Storage.key r) = (c0, inl r0) ->
  Storage.Upsert a r = (a', Some e) ->
  Storage.Put (Storage.Ready mem a) r =
    (Storage.Ready mem a', Some Storage.PersistenceError) /\
  snd (Storage.Get (Storage.Ready mem a') (Storage.key r)) = inl r0.
Proof.
  intros Hprior Hfail.
  destruct (Upsert_failure_keeps_store a a' r e Hfail) as [Hstore _].
  split.
  - simpl. rewrite Hfail, rollback_insert. reflexivity.
  - simpl in *. unfold Storage.Fetch in *. rewrite Hstore.
    destruct (mem !! Storage.key r) as [r1|].
    + inversion Hprior; subst. reflexivity.
    + destruct (Storage.durable a !! Storage.key r) as [r1|];
        inversion Hprior; subst. reflexivity.
Qed.

Lemma failed_Put_rolls_back_witness :
  let r0 := {| Storage.key := "AAPL"; Storage.price := 19050;
               Storage.ts := 1 |} in
  let r := {| Storage.key := "AAPL"; Storage.price := 19100;
              Storage.ts := 2 |} in
  let mem : gmap string Storage.PriceRecord := {[ "AAPL" := r0 ]} in
  let a := {| Storage.durable := mem; Storage.faults := [true] |} in
  let a' := {| Storage.durable := mem; Storage.faults := [] |} in
  Storage.Put (Storage.Ready mem a) r =
    (Storage.Ready mem a', Some Storage.PersistenceError) /\
  snd (Storage.Get (Storage.Ready mem a') "AAPL") = inl r0.
Proof.
  intros r0 r mem a a'.
  apply (failed_Put_rolls_back mem a a' r r0 Storage.PersistenceError
           (Storage.Ready mem a)); reflexivity.
Defined.

(** * Further properties of the wiring *)

(** Case analysis over everything a run of [Serve] depends on: what each
    imported function does, and whether the interrupt arrives. *)
Ltac serve_case :=
  match goal with
  | |- context [NewLogger ?e ?l] =>
      destruct (NewLogger e l) as [? [?|]] eqn:?
  | |- context [String.eqb ?a ?b] => destruct (String.eqb a b) eqn:?
  | |- context [NewBDKeeper ?e ?d ?l] =>
      destruct (NewBDKeeper e d l) as [[?|]| | |] eqn:?
  | |- context [NewMemoryStorage ?e ?c ?k ?l] =>
      destruct (NewMemoryStorage e c k l) as [[?|]| | |] eqn:?
  | |- context [NewBaseController ?e ?c ?s ?l] =>
      destruct (NewBaseController e c s l) as [?| | |] eqn:?
  | |- context [Route ?e ?b] => destruct (Route e b) as [?| | |] eqn:?
  | |- context [interrupt ?e] => destruct (interrupt e) eqn:?
  end.

Ltac serve_cases := run_app; repeat (serve_case; simpl).

(** ** What every run of [Serve] has in common *)

(** X1: the listener goroutine is started only after the logger, the
    keeper, the storage, the controller and its routes were all obtained,
    and then for the server configured by [startServer] with the run
    address, the request logger and the routes mounted at the root. *)
Theorem Serve_listens_after_construction `{P : Packages} (env : Env)
  (server : Server) (s : HTTPServer) :
  In (GoListenAndServe s) (snd (Serve env server [])) ->
  exists lg k ms bc h,
    NewLogger env (LogLevel (NewOptions env)) = (lg, None) /\
    fst (initializeKeeper env (DataBaseDSN (NewOptions env)) lg []) = Ret k /\
    NewMemoryStorage env (ctx server) (KeeperOf k) lg = Ret ms /\
    NewBaseController env (ctx server) ms lg = Ret bc /\
    Route env bc = Ret h /\
    s = built_server (built_router lg h) (RunAddr (NewOptions env)).
Proof.
  serve_cases; intros Hin;
    try (exfalso; revert Hin; simpl; intuition discriminate);
    (eexists _, _, _, _, _;
     repeat split; try first [reflexivity | eassumption];
     repeat (destruct Hin as [Hin|Hin]; try discriminate Hin);
     try contradiction;
     injection Hin as <-; reflexivity).
Qed.

Lemma Serve_listens_after_construction_witness :
  exists lg k ms bc h,
    NewLogger (demo_env "" None true) "info" = (lg, None) /\
    fst (initializeKeeper (demo_env "" None true) (fun _ => "") lg []) = Ret k /\
    NewMemoryStorage (demo_env "" None true) (Some tt) (KeeperOf k) lg = Ret ms /\
    NewBaseController (demo_env "" None true) (Some tt) ms lg = Ret bc /\
    Route (demo_env "" None true) bc = Ret h /\
    @built_server demo_packages (@built_router demo_packages "info" tt) ":8080" =
      built_server (built_router lg h) ":8080".
Proof.
  apply (@Serve_listens_after_construction demo_packages
           (demo_env "" None true) demo_server
           (@built_server demo_packages
              (@built_router demo_packages "info" tt) ":8080")).
  vm_compute. tauto.
Defined.

(** X2: how often [Serve] invokes [keeper.Close()] follows from how it
    ends, whatever the imported functions do.  When [Serve] returns, the
    call was made exactly once and it was the last thing [Serve] did; when
    [Serve] is parked on the signal channel or the process exits, it was
    not made; in no run is it made twice. *)
Theorem Serve_close_by_outcome `{P : Packages} (env : Env) (server : Server) :
  match fst (Serve env server []) with
  | Ret _ =>
      closes (snd (Serve env server [])) = 1%nat /\
      ends_with_close (snd (Serve env server [])) = true
  | Panic _ => (closes (snd (Serve env server [])) <= 1)%nat
  | Exit _ | Blocked => closes (snd (Serve env server [])) = 0%nat
  end.
Proof.
  serve_cases; first [reflexivity | split; reflexivity | lia].
Qed.

(** X3: a panic of [Serve] comes from an imported constructor, before the
    listener is started.  If the keeper had been obtained by then, the
    deferred [keeper.Close()] still runs, once, while the panic unwinds; if
    it is [NewBDKeeper] that panics, [Close] is not invoked. *)
Theorem Serve_panic_still_closes `{P : Packages} (env : Env)
  (server : Server) (msg : string) :
  fst (Serve env server []) = Panic msg ->
  count_events is_listen (snd (Serve env server [])) = 0%nat /\
  closes (snd (Serve env server [])) =
    (if returns
          (fst (initializeKeeper env (DataBaseDSN (NewOptions env))
                  (fst (NewLogger env (LogLevel (NewOptions env)))) []))
     then 1 else 0)%nat.
Proof.
  serve_cases; intros H; try discriminate H; split; reflexivity.
Qed.

Lemma Serve_panic_still_closes_witness :
  count_events is_listen
    (snd (Serve (panicking_env "postgres://prices") demo_server [])) = 0%nat /\
  closes (snd (Serve (panicking_env "postgres://prices") demo_server [])) =
    1%nat.
Proof.
  exact (@Serve_panic_still_closes demo_packages
           (panicking_env "postgres://prices") demo_server
           "storage: cannot load" eq_refl).
Defined.

(** X4: [Serve] returns only after the interrupt was delivered; it then
    leaves the receiver with its context unchanged and with [srv] set to
    the one server for which the listener goroutine was started. *)
Theorem Serve_returns_started_server `{P : Packages} (env : Env)
  (server sv : Server) :
  fst (Serve env server []) = Ret sv ->
  interrupt env = true /\
  ctx sv = ctx server /\
  count_events is_listen (snd (Serve env server [])) = 1%nat /\
  exists s, srv sv = Some s /\ In (GoListenAndServe s) (snd (Serve env server [])).
Proof.
  serve_cases; intros H; try discriminate H; injection H as <-;
    (split; [reflexivity | split; [reflexivity | split; [reflexivity|]]]);
    eexists; (split; [reflexivity | simpl; tauto]).
Qed.

Lemma Serve_returns_started_server_witness :
  count_events is_listen
    (snd (Serve (demo_env "postgres://prices" None true) demo_server [])) =
    1%nat.
Proof.
  exact (proj1 (proj2 (proj2
    (@Serve_returns_started_server demo_packages
       (demo_env "postgres://prices" None true) demo_server
       {| srv := Some (@built_server demo_packages
                         (@built_router demo_packages "info" tt) ":8080");
          ctx := Some tt |}
       eq_refl)))).
Defined.

(** X5: [Serve] never takes the nil branch of [initializeStorage].  The
    keeper it passes is a [*bdkeeper.BDKeeper] behind the [storage.Keeper]
    interface, which is never the nil interface: in no run is the warning
    of that branch logged, and whenever [initializeKeeper] returns (nil or
    not) [storage.NewMemoryStorage] is called with its result. *)
Theorem Serve_never_takes_nil_storage_branch `{P : Packages} (env : Env)
  (server : Server) :
  ~ In (LogWarn "Keeper is nil, cannot initialize storage")
       (snd (Serve env server [])) /\
  (forall lg k,
     NewLogger env (LogLevel (NewOptions env)) = (lg, None) ->
     fst (initializeKeeper env (DataBaseDSN (NewOptions env)) lg []) = Ret k ->
     In (CallNewMemoryStorage (KeeperOf k)) (snd (Serve env server []))).
Proof.
  split.
  - serve_cases; intuition discriminate.
  - intros lg k Hlog. revert k. unfold Serve. rewrite Hlog.
    serve_cases; intros k Hk; try discriminate Hk;
      injection Hk as <-; simpl; tauto.
Qed.

(** ** [Serve] followed by [Shutdown] *)

(** X6: when [Serve] has returned, [Shutdown] on the receiver it leaves
    stops exactly the server whose listener [Serve] started, and only now:
    [Serve] itself had not stopped it, while [keeper.Close()] has already
    been invoked.  [Shutdown] returns, having released its timeout
    context. *)
Theorem Shutdown_after_Serve `{P : Packages} (env : Env)
  (server sv : Server) (tr : list event) (parent : Context_) (timeout : Z) :
  Serve env server [] = (Ret sv, tr) ->
  ctx server = Some parent ->
  exists s mid,
    In (GoListenAndServe s) tr /\
    count_events is_listener_stop tr = 0%nat /\
    closes tr = 1%nat /\
    Shutdown env sv timeout tr =
      (Ret tt,
       tr ++ [StdLog "attempting to stop the server"; CallSrvShutdown s] ++
       mid ++ [CallCancel]) /\
    count_events is_listener_stop mid = 0%nat /\
    closes mid = 0%nat.
Proof.
  intros Hrun Hctx.
  assert (exists s,
            srv sv = Some s /\ ctx sv = Some parent /\
            In (GoListenAndServe s) tr /\
            count_events is_listener_stop tr = 0%nat /\
            closes tr = 1%nat) as (s & Hsrv & Hctx' & Hin & Hstop & Hclose).
  { rewrite <- Hctx. revert Hrun. clear Hctx.
    serve_cases; intros H; try discriminate H;
      injection H as <- <-; eexists;
      (split; [reflexivity | split; [reflexivity |
        split; [simpl; tauto | split; reflexivity]]]). }
  exists s. eexists. split; [exact Hin|]. split; [exact Hstop|].
  split; [exact Hclose|]. split.
  - apply (Shutdown_started env sv timeout parent s tr Hsrv Hctx').
  - destruct (srv_Shutdown env s (WithTimeout env parent timeout)) as [e|];
      [destruct (errors_Is e ErrServerClosed)|]; split; reflexivity.
Qed.

Lemma Shutdown_after_Serve_witness :
  exists (s : @HTTPServer demo_packages) mid,
    In (GoListenAndServe s)
       (snd (Serve (demo_env "postgres://prices" None true) demo_server [])) /\
    count_events is_listener_stop
      (snd (Serve (demo_env "postgres://prices" None true) demo_server [])) =
      0%nat /\
    closes (snd (Serve (demo_env "postgres://prices" None true) demo_server []))
      = 1%nat /\
    Shutdown (demo_env "postgres://prices" None true)
      {| srv := Some (@built_server demo_packages
                        (@built_router demo_packages "info" tt) ":8080");
         ctx := Some tt |}
      (5 * Second)
      (snd (Serve (demo_env "postgres://prices" None true) demo_server [])) =
      (Ret tt,
       snd (Serve (demo_env "postgres://prices" None true) demo_server []) ++
       [StdLog "attempting to stop the server"; CallSrvShutdown s] ++
       mid ++ [CallCancel]) /\
    count_events is_listener_stop mid = 0%nat /\
    closes mid = 0%nat.
Proof.
  exact (@Shutdown_after_Serve demo_packages
           (demo_env "postgres://prices" None true) demo_server _ _ tt
           (5 * Second) eq_refl eq_refl).
Defined.

(** ** [Shutdown] on any server *)

(** X7: the shape of every run of [Shutdown].  On a nil context it panics
    at once and leaves a started server running.  On any other context it
    returns: it first logs the attempt, it stops the listener exactly once
    if [srv] is set and not at all otherwise, it does nothing but log
    besides, and releasing the timeout context is the last thing it does,
    once, also on the early [return] after a failed stop. *)
Theorem Shutdown_shape `{P : Packages} (env : Env) (server : Server)
  (timeout : Z) (tr0 : list event) :
  match ctx server with
  | None =>
      Shutdown env server timeout tr0 =
        (Panic "cannot create context from nil parent", tr0)
  | Some parent =>
      exists mid,
        Shutdown env server timeout tr0 =
          (Ret tt,
           tr0 ++ StdLog "attempting to stop the server" :: mid ++ [CallCancel]) /\
        forallb is_shutdown_event mid = true /\
        count_events is_cancel mid = 0%nat /\
        count_events is_listener_stop mid =
          (if is_nil (srv server) then 0 else 1)%nat
  end.
Proof.
  destruct (ctx server) as [parent|] eqn:Hctx.
  - destruct (srv server) as [s|] eqn:Hsrv.
    + rewrite (Shutdown_started env server timeout parent s tr0 Hsrv Hctx).
      exists
        (CallSrvShutdown s ::
         match srv_Shutdown env s (WithTimeout env parent timeout) with
         | Some e =>
             if errors_Is e ErrServerClosed
             then [StdLog "server stopped"; StdLog "server exited properly"]
             else [StdLog ("server Shutdown Failed: " +:+ error_text e)]
         | None => [StdLog "server stopped"; StdLog "server exited properly"]
         end).
      split; [reflexivity|].
      destruct (srv_Shutdown env s (WithTimeout env parent timeout)) as [e|];
        [destruct (errors_Is e ErrServerClosed)|];
        (split; [reflexivity | split; reflexivity]).
    + exists [StdLog "server exited properly"]. split.
      * run_app. rewrite Hctx, Hsrv. simpl. rewrite <- !app_assoc. reflexivity.
      * split; [reflexivity | split; reflexivity].
  - run_app. rewrite Hctx. reflexivity.
Qed.

(** X8: [Shutdown] logs "server exited properly" exactly when it did not
    fail to stop the listener ([srv] is nil, or [srv.Shutdown] returned
    nil or [http.ErrServerClosed]), and "server stopped" exactly when
    there was a listener and stopping it did not fail.  After a failed
    stop it logs the failure instead and neither of the two lines. *)
Theorem Shutdown_reports_success_iff_clean `{P : Packages} (env : Env)
  (server : Server) (timeout : Z) (parent : Context_) (tr0 : list event) :
  ctx server = Some parent ->
  exists new,
    snd (Shutdown env server timeout tr0) = tr0 ++ new /\
    (In (StdLog "server exited properly") new <->
       shutdown_clean env server parent timeout = true) /\
    (In (StdLog "server stopped") new <->
       is_nil (srv server) = false /\
       shutdown_clean env server parent timeout = true).
Proof.
  intros Hctx. unfold shutdown_clean.
  destruct (srv server) as [s|] eqn:Hsrv.
  - rewrite (Shutdown_started env server timeout parent s tr0 Hsrv Hctx).
    eexists. split; [reflexivity|].
    destruct (srv_Shutdown env s (WithTimeout env parent timeout)) as [e|];
      [destruct (errors_Is e ErrServerClosed)|]; simpl;
      intuition (try discriminate; try reflexivity).
  - exists [StdLog "attempting to stop the server";
            StdLog "server exited properly"; CallCancel].
    split.
    + run_app. rewrite Hctx, Hsrv. simpl. rewrite <- !app_assoc. reflexivity.
    + simpl. intuition (try discriminate; try reflexivity).
Qed.

Lemma Shutdown_reports_success_iff_clean_witness :
  exists new : list (@event demo_packages),
    snd (Shutdown (failing_shutdown_env (ErrOther "context deadline exceeded"))
           {| srv := Some (@built_server demo_packages
                             (@built_router demo_packages "info" tt) ":8080");
              ctx := Some tt |}
           (5 * Second) []) = [] ++ new /\
    (In (StdLog "server exited properly") new <-> false = true) /\
    (In (StdLog "server stopped") new <-> false = false /\ false = true).
Proof.
  exact (@Shutdown_reports_success_iff_clean demo_packages
           (failing_shutdown_env (ErrOther "context deadline exceeded"))
           {| srv := Some (@built_server demo_packages
                             (@built_router demo_packages "info" tt) ":8080");
              ctx := Some tt |}
           (5 * Second) tt [] eq_refl).
Defined.



(** ** The calls [Serve] makes *)

(** X10: [Serve] tries to open the adapter at most once, never with an
    empty descriptor and never before the logger exists: a call of
    [bdkeeper.NewBDKeeper] carries the descriptor of the options, which
    is then non-empty, and the logger was built without error. *)
Theorem Serve_opens_adapter_at_most_once `{P : Packages} (env : Env)
  (server : Server) :
  (count_events is_open_attempt (snd (Serve env server [])) <= 1)%nat /\
  (forall d,
     In (CallNewBDKeeper d) (snd (Serve env server [])) ->
     d = DataBaseDSN (NewOptions env) tt /\
     d <> "" /\
     snd (NewLogger env (LogLevel (NewOptions env))) = None).
Proof.
  split.
  - serve_cases; lia.
  - intros d. serve_cases; intros Hin;
      try (exfalso; revert Hin; simpl; intuition discriminate);
      (split; [|split; [|reflexivity]]);
      try (apply String.eqb_neq);
      repeat (destruct Hin as [Hin|Hin]; try discriminate Hin);
      try contradiction; try (injection Hin as <-); assumption || reflexivity.
Qed.

(** X11: the two debug lines of [Serve] are accurate.  "Failed to
    initialize keeper" is logged exactly when the logger was built and
    [initializeKeeper] returned nil; "Failed to initialize storage"
    exactly when, after that, [storage.NewMemoryStorage] was called and
    returned nil. *)
Theorem Serve_debug_lines `{P : Packages} (env : Env) (server : Server) :
  (In (LogDebug "Failed to initialize keeper") (snd (Serve env server [])) <->
   snd (NewLogger env (LogLevel (NewOptions env))) = None /\
   fst (initializeKeeper env (DataBaseDSN (NewOptions env))
          (fst (NewLogger env (LogLevel (NewOptions env)))) []) = Ret None) /\
  (In (LogDebug "Failed to initialize storage") (snd (Serve env server [])) <->
   snd (NewLogger env (LogLevel (NewOptions env))) = None /\
   exists k,
     fst (initializeKeeper env (DataBaseDSN (NewOptions env))
            (fst (NewLogger env (LogLevel (NewOptions env)))) []) = Ret k /\
     NewMemoryStorage env (ctx server) (KeeperOf k)
       (fst (NewLogger env (LogLevel (NewOptions env)))) = Ret None).
Proof.
  split.
  - serve_cases; intuition (try discriminate; try reflexivity).
  - serve_cases; split;
      try (intros [Hl (k & Hk & Hms)]; try discriminate Hl; try discriminate Hk;
           injection Hk as <-; try congruence; simpl; tauto);
      intros Hin;
      try (exfalso; revert Hin; simpl; intuition discriminate);
      (split; [reflexivity | eexists; split; [reflexivity | assumption]]).
Qed.
